(** * VidSentry SDK (sdk-js): error taxonomy, transport, operations, poller

    A shallow embedding of the SDK's error classes and of its client class
    (constructor, [request], [handleErrorResponse], [moderate],
    [getJobStatus], [waitForCompletion], [getSignedUrl], [getMetrics]),
    with the interfaces of [types.ts].

    - JavaScript values are an inductive type [value].  A number is [NaN],
      an infinity, or [Num q] with [q] the exact value of a finite double;
      [double_of] rounds a real to the nearest double, and decoded JSON,
      [parseInt] and division go through it.  Negative zero is not kept
      apart from zero.
    - Thrown things are [exn]: an SDK error object or any other [Error].
    - Asynchronous code runs in a state-and-exception monad [M] over a
      [world]: a millisecond clock, the armed timers, the HTTP calls issued
      so far, the console, and the network's answer to each call.
    - Durations and instants are whole milliseconds ([N]), and a delay is
      taken inside the range of the runtime's timers (1 to 2147483647 ms),
      where a timer fires at the instant it is due.  Options that are
      negative, fractional, infinite or beyond that range are outside the
      model; statements that depend on the range say so.
    - [fetch] settles on the response headers; the body comes
      [body_after] milliseconds later, or never, and [response.json()]
      waits for it.  An await that never resumes is the result [Never]. *)

From Stdlib Require Import String Ascii NArith ZArith QArith List Bool Lia.
From Stdlib Require Import DecimalString DecimalPos DecimalN.
Import ListNotations.
Local Open Scope string_scope.

(* ================================================================== *)
(** ** JavaScript values *)

Inductive number :=
| NaN
| Infinity (negative : bool)
| Num (q : Q).

#[local] Set Warnings "-register-all".

Inductive value :=
| VUndefined
| VNull
| VBool (b : bool)
| VNum (n : number)
| VStr (s : string)
| VArr (items : list value)
| VObj (fields : list (string * value)).

Definition num_of_Z (z : Z) : value := VNum (Num (inject_Z z)).

(** ToBoolean. *)
Definition number_truthy (n : number) : bool :=
  match n with
  | NaN => false
  | Infinity _ => true
  | Num q => negb (Qnum q =? 0)%Z
  end.

Definition truthy (v : value) : bool :=
  match v with
  | VUndefined | VNull => false
  | VBool b => b
  | VNum n => number_truthy n
  | VStr s => negb (s =? "")
  | VArr _ | VObj _ => true
  end.

(** [a || b] on values. *)
Definition js_or (a b : value) : value := if truthy a then a else b.

(** [s || d] where [s] is a string that may be missing (undefined or null). *)
Definition string_or (s : option string) (d : string) : string :=
  match s with
  | Some t => if t =? "" then d else t
  | None => d
  end.

(** [n || d] where [n] is a whole number that may be missing. *)
Definition N_or (n : option N) (d : N) : N :=
  match n with
  | Some k => if (k =? 0)%N then d else k
  | None => d
  end.

(** A possibly missing string is falsy when missing or empty. *)
Definition present (s : option string) : bool :=
  match s with
  | Some t => negb (t =? "")
  | None => false
  end.

Definition opt_str (s : option string) : value :=
  match s with
  | Some t => VStr t
  | None => VUndefined
  end.

(** Own property of an object literal or decoded JSON object; a key is
    listed once. *)
Fixpoint lookup (k : string) (fields : list (string * value)) : value :=
  match fields with
  | [] => VUndefined
  | (k', v) :: rest => if k' =? k then v else lookup k rest
  end.

(** [v.k] for a key [k] that no built-in prototype defines.  [None] is the
    TypeError of reading a property of undefined or null. *)
Definition get_prop (v : value) (k : string) : option value :=
  match v with
  | VUndefined | VNull => None
  | VObj fields => Some (lookup k fields)
  | _ => Some VUndefined
  end.

(** [v.k] where [v] is known not to be undefined or null. *)
Definition field (v : value) (k : string) : value :=
  match get_prop v k with
  | Some x => x
  | None => VUndefined
  end.

(** [v.length === 0] for a [v] that is neither undefined nor null. *)
Definition length_is_zero (v : value) : bool :=
  match v with
  | VArr items => match items with [] => true | _ => false end
  | VStr s => s =? ""
  | VObj fields =>
      match lookup "length" fields with
      | VNum (Num q) => (Qnum q =? 0)%Z
      | _ => false
      end
  | _ => false
  end.

(** [v[0]] for a [v] that is neither undefined nor null. *)
Definition first_element (v : value) : value :=
  match v with
  | VArr items => hd VUndefined items
  | VStr (String c _) => VStr (String c "")
  | VObj fields => lookup "0" fields
  | _ => VUndefined
  end.

(* ================================================================== *)
(** ** Numbers as text *)

(** Decimal digits of a whole number, as in a template literal. *)
Definition decimal (n : N) : string := NilZero.string_of_uint (N.to_uint n).

Fixpoint zeros (k : nat) : string :=
  match k with
  | O => ""
  | S k' => String "0" (zeros k')
  end.

Definition pad_left (width : nat) (s : string) : string :=
  zeros (width - String.length s) ++ s.

(** The integer nearest to [n / d] for [0 <= n] and [0 < d], the even one
    on a tie. *)
Definition round_half_even (n d : Z) : Z :=
  let q := (n / d)%Z in
  let r := (n mod d)%Z in
  if (2 * r <? d)%Z then q
  else if (d <? 2 * r)%Z then (q + 1)%Z
  else if Z.even q then q else (q + 1)%Z.

(** [n / (d * 2^e)] as a fraction. *)
Definition scaled (n d e : Z) : Z * Z :=
  if (0 <=? e)%Z then (n, d * 2 ^ e)%Z else (n * 2 ^ (- e), d)%Z.

(** The binary64 number nearest to [n / d] for positive [n] and [d]:
    53 bits of mantissa, exponent of the last bit from -1074 to 971,
    ties to even, overflow to infinity. *)
Definition nearest_double (n d : Z) : option Q :=
  let e0 := (Z.log2 n - Z.log2 d - 52)%Z in
  let '(a, b) := scaled n d e0 in
  let e1 := if (a / b <? 2 ^ 52)%Z then (e0 - 1)%Z else e0 in
  let e := Z.max e1 (-1074) in
  let '(a, b) := scaled n d e in
  let m := round_half_even a b in
  if (971 <? e)%Z || ((e =? 971)%Z && (m =? 2 ^ 53)%Z) then None
  else Some (Qred (if (0 <=? e)%Z then (m * 2 ^ e) # 1
                   else m # Z.to_pos (2 ^ (- e)))).

(** The JavaScript number for the real [q]. *)
Definition double_of (q : Q) : number :=
  let n := Qnum q in
  let d := Zpos (Qden q) in
  if (n =? 0)%Z then Num 0
  else if (d =? 1)%Z && (Z.abs n <=? 2 ^ 53)%Z then Num (n # 1)
  else
    match nearest_double (Z.abs n) d with
    | None => Infinity (n <? 0)%Z
    | Some x => Num (if (n <? 0)%Z then Qopp x else x)
    end.

(** *** Number::toString *)

(** The decimal exponent [n] of a positive [q]: 10^(n-1) <= q < 10^n. *)
Fixpoint exponent_below (fuel : nat) (q : Q) (n : Z) : Z :=
  match fuel with
  | O => n
  | S fuel' =>
      if Qle_bool 1 q then n else exponent_below fuel' (q * 10)%Q (n - 1)%Z
  end.

Definition decimal_exponent (q : Q) : Z :=
  if Qle_bool 1 q
  then Z.of_nat (String.length (decimal (Z.to_N (Qnum q / Zpos (Qden q)))))
  else exponent_below 400 (q * 10)%Q 0%Z.

Definition pow10 (e : Z) : Q :=
  if (0 <=? e)%Z then (10 ^ e) # 1 else 1 # Z.to_pos (10 ^ (- e)).

Definition Qabs_diff (a b : Q) : Q :=
  let d := (a - b)%Q in if Qle_bool 0 d then d else Qopp d.

(** The [k]-digit integers [s] with [s * 10^(n-k)] reading back as [q],
    the closest to [q] first. *)
Definition digits_of_length (q : Q) (n : Z) (k : Z) : option (Z * Z) :=
  let unit := pow10 (n - k) in
  let x := (q / unit)%Q in
  let lo := (Qnum x / Zpos (Qden x))%Z in
  let value s := (inject_Z s * unit)%Q in
  let reads_back s :=
    match double_of (value s) with
    | Num y => Qeq_bool y q
    | _ => false
    end in
  let hi := (lo + 1)%Z in
  let lo_ok := (10 ^ (k - 1) <=? lo)%Z && reads_back lo in
  let hi_ok := reads_back hi in
  let pick s := if (s =? 10 ^ k)%Z then Some (10 ^ (k - 1), n + 1)%Z
                else Some (s, n) in
  match lo_ok, hi_ok with
  | false, false => None
  | true, false => pick lo
  | false, true => pick hi
  | true, true =>
      let dl := Qabs_diff (value lo) q in
      let dh := Qabs_diff (value hi) q in
      if Qle_bool dl dh && negb (Qeq_bool dl dh) then pick lo
      else if Qeq_bool dl dh then (if Z.even lo then pick lo else pick hi)
      else pick hi
  end.

Fixpoint shortest_digits (fuel : nat) (q : Q) (n : Z) (k : Z)
  : option (Z * Z * Z) :=
  match fuel with
  | O => None
  | S fuel' =>
      match digits_of_length q n k with
      | Some (s, n') => Some (s, n', k)
      | None => shortest_digits fuel' q n (k + 1)%Z
      end
  end.

Definition positive_to_string (q : Q) : string :=
  match shortest_digits 17 q (decimal_exponent q) 1 with
  | None => "?"
  | Some (s, n, k) =>
      let ds := decimal (Z.to_N s) in
      let kn := Z.to_nat k in
      if (k <=? n)%Z && (n <=? 21)%Z then ds ++ zeros (Z.to_nat (n - k))
      else if (0 <? n)%Z && (n <=? 21)%Z then
        substring 0 (Z.to_nat n) ds ++ "."
        ++ substring (Z.to_nat n) (kn - Z.to_nat n) ds
      else if (-6 <? n)%Z && (n <=? 0)%Z then
        "0." ++ zeros (Z.to_nat (- n)) ++ ds
      else
        let e := (n - 1)%Z in
        let exp := (if (0 <=? e)%Z then "+" else "-")
                   ++ decimal (Z.to_N (Z.abs e)) in
        if (k =? 1)%Z then ds ++ "e" ++ exp
        else substring 0 1 ds ++ "." ++ substring 1 (kn - 1) ds ++ "e" ++ exp
  end.

Definition number_to_string (x : number) : string :=
  match x with
  | NaN => "NaN"
  | Infinity false => "Infinity"
  | Infinity true => "-Infinity"
  | Num q =>
      if (Qnum q =? 0)%Z then "0"
      else if (Qnum q <? 0)%Z then "-" ++ positive_to_string (Qopp q)
      else positive_to_string q
  end.

(** [x.toFixed(f)]: from 1e21 on the number's own text; below, the
    integer nearest to |x| * 10^f, the larger one on a tie, printed with
    [f] digits after the point. *)
Definition toFixed (x : number) (f : nat) : string :=
  match x with
  | NaN | Infinity _ => number_to_string x
  | Num q =>
      if Qle_bool (inject_Z (10 ^ 21)) (if (Qnum q <? 0)%Z then Qopp q else q)
      then number_to_string x
      else
        let scale := (10 ^ Z.of_nat f)%Z in
        let a := Z.abs (Qnum q) in
        let d := Zpos (Qden q) in
        let n := ((2 * a * scale + d) / (2 * d))%Z in
        let ds := pad_left (S f) (decimal (Z.to_N n)) in
        let whole := substring 0 (String.length ds - f) ds in
        let frac := substring (String.length ds - f) f ds in
        (if (Qnum q <? 0)%Z then "-" else "") ++ whole ++
        (match f with O => "" | _ => "." ++ frac end)
  end.

(** [x / y] on numbers, for the finite, non-zero divisors used here. *)
Definition divide (x : number) (y : Q) : number :=
  match x with
  | Num q => double_of (q / y)
  | other => other
  end.

(** The text of [ms / 1000] in a template literal. *)
Definition seconds_text (ms : N) : string :=
  number_to_string (divide (double_of (inject_Z (Z.of_N ms))) 1000).

(** *** parseInt(s, 10) *)

Definition is_space (c : ascii) : bool :=
  let n := nat_of_ascii c in
  ((9 <=? n) && (n <=? 13) || (n =? 32) || (n =? 160))%nat.

Definition digit_of (c : ascii) : option Z :=
  let n := nat_of_ascii c in
  if ((48 <=? n) && (n <=? 57))%nat then Some (Z.of_nat (n - 48)) else None.

Fixpoint skip_spaces (s : string) : string :=
  match s with
  | String c rest => if is_space c then skip_spaces rest else s
  | EmptyString => s
  end.

(** Value of the longest prefix of decimal digits; [acc] is the value read
    so far, [None] before the first digit. *)
Fixpoint leading_digits (s : string) (acc : option Z) : option Z :=
  match s with
  | String c rest =>
      match digit_of c with
      | Some d =>
          leading_digits rest
            (Some (10 * match acc with Some a => a | None => 0 end + d)%Z)
      | None => acc
      end
  | EmptyString => acc
  end.

Definition parseInt (s : string) : number :=
  let s := skip_spaces s in
  let '(negative, s) :=
    match s with
    | String "-" rest => (true, rest)
    | String "+" rest => (false, rest)
    | _ => (false, s)
    end in
  match leading_digits s None with
  | None => NaN
  | Some z => double_of (inject_Z (if negative then - z else z))
  end.

(** *** Header names are matched without regard to case. *)

Definition lower (c : ascii) : ascii :=
  let n := nat_of_ascii c in
  if ((65 <=? n) && (n <=? 90))%nat then ascii_of_nat (n + 32) else c.

Fixpoint lowercase (s : string) : string :=
  match s with
  | String c rest => String (lower c) (lowercase rest)
  | EmptyString => EmptyString
  end.


(** *** Header values lose the white space around them. *)

Definition is_http_space (c : ascii) : bool :=
  let n := nat_of_ascii c in
  ((n =? 9) || (n =? 10) || (n =? 13) || (n =? 32))%nat.

Fixpoint strip_left (s : string) : string :=
  match s with
  | String c rest => if is_http_space c then strip_left rest else s
  | EmptyString => s
  end.

Definition reverse (s : string) : string :=
  string_of_list_ascii (rev (list_ascii_of_string s)).

Definition strip (s : string) : string :=
  reverse (strip_left (reverse (strip_left s))).

(** *** ToString *)

Fixpoint to_string (v : value) : string :=
  match v with
  | VUndefined => "undefined"
  | VNull => "null"
  | VBool true => "true"
  | VBool false => "false"
  | VNum n => number_to_string n
  | VStr s => s
  | VArr items =>
      (fix join (l : list value) : string :=
         let element x :=
           match x with
           | VUndefined | VNull => ""
           | _ => to_string x
           end in
         match l with
         | [] => ""
         | [x] => element x
         | x :: rest => element x ++ "," ++ join rest
         end) items
  | VObj _ => "[object Object]"
  end.

(* ================================================================== *)
(** ** Error taxonomy *)

(** The class of an error object, with the fields its subclass adds. *)
Inductive error_class :=
| Base
| Authentication
| RateLimit (retryAfter : value)
| InsufficientFunds (required available : value)
| NotFound
| Timeout
| Network.

(** An instance of VidSentryError.  [message] is always a string: the
    string conversion of what the constructor was given, as [Error]
    stores it. *)
Record sdk_error := {
  class : error_class;
  message : value;
  code : string;
  details : value
}.

(** [this.name], as each constructor sets it. *)
Definition name (e : sdk_error) : string :=
  match class e with
  | Base => "VidSentryError"
  | Authentication => "AuthenticationError"
  | RateLimit _ => "RateLimitError"
  | InsufficientFunds _ _ => "InsufficientFundsError"
  | NotFound => "NotFoundError"
  | Timeout => "TimeoutError"
  | Network => "NetworkError"
  end.

(** Whatever a [throw] can carry: an SDK error, or another [Error] object
    known by its name and message (TypeError, SyntaxError, AbortError...). *)
Inductive exn :=
| Sdk (e : sdk_error)
| Native (error_name error_message : string).

(** What [Error] stores for the argument [v]: nothing (the empty message of
    the prototype) when it is undefined, its string conversion otherwise. *)
Definition error_text (v : value) : value :=
  match v with
  | VUndefined => VStr ""
  | _ => VStr (to_string v)
  end.

(** A parameter with a default takes it when the argument is undefined. *)
Definition default_to (d : string) (v : value) : value :=
  match v with
  | VUndefined => VStr d
  | _ => v
  end.

Definition VidSentryError (message : value) (code : string) (details : value)
  : sdk_error :=
  {| class := Base; message := error_text message; code := code;
     details := details |}.

Definition AuthenticationError (message : value) : sdk_error :=
  {| class := Authentication;
     message := error_text (default_to "Invalid or expired API key" message);
     code := "AUTHENTICATION_ERROR";
     details := VUndefined |}.

Definition RateLimitError (message : value) (retryAfter : value) : sdk_error :=
  {| class := RateLimit retryAfter;
     message := error_text (default_to "Rate limit exceeded" message);
     code := "RATE_LIMIT_ERROR";
     details := VObj [("retryAfter", retryAfter)] |}.

(** [v.toFixed(2)] inside the message template; only a number has the
    method (TypeError wording of V8). *)
Definition call_toFixed (variable : string) (v : value) : exn + string :=
  match v with
  | VNum n => inr (toFixed n 2)
  | VUndefined =>
      inl (Native "TypeError"
             "Cannot read properties of undefined (reading 'toFixed')")
  | VNull =>
      inl (Native "TypeError"
             "Cannot read properties of null (reading 'toFixed')")
  | _ => inl (Native "TypeError" (variable ++ ".toFixed is not a function"))
  end.

(** The constructor builds the message first, so it throws when one of its
    arguments is not a number. *)
Definition InsufficientFundsError (required available : value)
  : exn + sdk_error :=
  match call_toFixed "required" required with
  | inl e => inl e
  | inr r =>
      match call_toFixed "available" available with
      | inl e => inl e
      | inr a =>
          inr {| class := InsufficientFunds required available;
                 message := VStr ("Insufficient funds. Required: R" ++ r
                                  ++ ", Available: R" ++ a);
                 code := "INSUFFICIENT_FUNDS";
                 details := VObj [("required", required);
                                  ("available", available)] |}
      end
  end.

Definition NotFoundError (resource id : string) : sdk_error :=
  {| class := NotFound;
     message := VStr (resource ++ " not found: " ++ id);
     code := "NOT_FOUND";
     details := VObj [("resource", VStr resource); ("id", VStr id)] |}.

Definition TimeoutError (message : value) : sdk_error :=
  {| class := Timeout;
     message := error_text (default_to "Request timed out" message);
     code := "TIMEOUT_ERROR";
     details := VUndefined |}.

Definition NetworkError (message : value) : sdk_error :=
  {| class := Network;
     message := error_text (default_to "Network error" message);
     code := "NETWORK_ERROR";
     details := VUndefined |}.

(* ================================================================== *)
(** ** Interfaces of types.ts *)

Module Config.
Record t := {
  apiKey : option string;
  baseUrl : option string;
  timeout : option N;
  debug : option bool
}.
End Config.

Module Settings.
Record t := {
  blur : option bool;
  mute : option bool;
  visualSensitivity : option number;
  audioSensitivity : option number
}.
End Settings.

Inductive tier := standard | premium.

Definition tier_text (t : tier) : string :=
  match t with
  | standard => "standard"
  | premium => "premium"
  end.

Module Options.
Record t := {
  videoUrl : option string;
  gcsUri : option string;
  filePath : option string;
  title : option string;
  tier : option tier;
  settings : option Settings.t
}.
End Options.

(** The object returned by getJobStatus.  The server is trusted for the
    shape, so a field holds whatever the wire carried. *)
Module Job.
Record t := {
  id : value;
  videoId : value;
  status : value;
  originalUrl : value;
  moderatedUrl : value;
  detections : value;
  geminiAnalysis : value;
  errorMessage : value;
  processingStartedAt : value;
  processingCompletedAt : value;
  createdAt : value
}.
End Job.

Module SignedUrl.
Record t := {
  url : value;
  expiresAt : value
}.
End SignedUrl.

Module Wait.
Record t := {
  maxWait : option N;
  pollInterval : option N
}.
End Wait.

(* ================================================================== *)
(** ** The world outside the client *)

(** What [response.json()] finds: a value; text that is not JSON, for
    which it rejects with a SyntaxError of the given message; or a body
    that never comes to its end. *)
Inductive payload :=
| Json (v : value)
| NotJson (syntax_error : string)
| Unfinished.

Module Response.
(** [headers] are the header fields as received; [body_after] is the
    time from the headers to the end of the body. *)
Record t := {
  status : N;
  statusText : string;
  headers : list (string * string);
  body : payload;
  body_after : N
}.

Definition ok (r : t) : bool := ((200 <=? status r) && (status r <=? 299))%N.

(** [headers.get(name)]: the values of all fields of that name, each
    without the white space around it, joined. *)
Definition get (r : t) (field : string) : option string :=
  match filter (fun kv => lowercase (fst kv) =? lowercase field) (headers r)
  with
  | [] => None
  | kv :: rest =>
      Some (fold_left (fun acc kv' => acc ++ ", " ++ strip (snd kv')) rest
              (strip (snd kv)))
  end.
End Response.

Module Request.
(** The arguments of one [fetch].  [body] is the object handed to
    [JSON.stringify], whose text goes on the wire. *)
Record t := {
  url : string;
  method : string;
  headers : list (string * string);
  body : option value
}.
End Request.

(** How the network answers a call when nobody aborts it. *)
Inductive fetch_outcome :=
| Responds (latency : N) (r : Response.t)
| Rejects (latency : N) (error_name error_message : string)
| Stalls.

(** A timer handle: its id and the instant it is due. *)
Record timer := {
  timer_id : nat;
  due : N
}.

(** - [now]: what [Date.now()] returns;
    - [net i]: the network's answer to the [i]-th call issued (from 0);
    - [sent]: the calls issued, latest first;
    - [aborted]: the indices of the calls torn down by an abort signal;
    - [armed]: the timers set and neither fired nor cleared;
    - [next_timer]: the id the next [setTimeout] hands out;
    - [console]: the lines logged, latest first. *)
Record world := {
  now : N;
  net : nat -> fetch_outcome;
  sent : list Request.t;
  aborted : list nat;
  armed : list timer;
  next_timer : nat;
  console : list string
}.

Definition set_now (t : N) (w : world) : world :=
  {| now := t; net := net w; sent := sent w; aborted := aborted w;
     armed := armed w; next_timer := next_timer w; console := console w |}.

Definition set_sent (l : list Request.t) (w : world) : world :=
  {| now := now w; net := net w; sent := l; aborted := aborted w;
     armed := armed w; next_timer := next_timer w; console := console w |}.

Definition set_aborted (l : list nat) (w : world) : world :=
  {| now := now w; net := net w; sent := sent w; aborted := l;
     armed := armed w; next_timer := next_timer w; console := console w |}.

Definition set_armed (l : list timer) (w : world) : world :=
  {| now := now w; net := net w; sent := sent w; aborted := aborted w;
     armed := l; next_timer := next_timer w; console := console w |}.

Definition set_next_timer (n : nat) (w : world) : world :=
  {| now := now w; net := net w; sent := sent w; aborted := aborted w;
     armed := armed w; next_timer := n; console := console w |}.

Definition set_console (l : list string) (w : world) : world :=
  {| now := now w; net := net w; sent := sent w; aborted := aborted w;
     armed := armed w; next_timer := next_timer w; console := l |}.

(** Number of HTTP calls issued so far. *)
Definition http_calls (w : world) : nat := length (sent w).

Definition disarm (id : nat) (l : list timer) : list timer :=
  filter (fun t => negb (timer_id t =? id)%nat) l.


(* ================================================================== *)
(** ** Asynchronous code: state and exceptions *)

(** How an awaited computation ends: it throws, it returns, or it never
    resumes. *)
Inductive result (A : Type) : Type :=
| Throw (e : exn)
| Return (a : A)
| Never.

Arguments Throw {A} e.
Arguments Return {A} a.
Arguments Never {A}.

Definition M (A : Type) : Type := world -> result A * world.

Definition ret {A} (a : A) : M A := fun w => (Return a, w).

Definition throw {A} (e : exn) : M A := fun w => (Throw e, w).

Definition bind {A B} (m : M A) (k : A -> M B) : M B :=
  fun w =>
    match m w with
    | (Throw e, w') => (Throw e, w')
    | (Return a, w') => k a w'
    | (Never, w') => (Never, w')
    end.

Definition lift {A} (r : result A) : M A := fun w => (r, w).

(** [try { body } catch (error) { handler }] *)
Definition try_catch {A} (body : M A) (handler : exn -> M A) : M A :=
  fun w =>
    match body w with
    | (Throw e, w') => handler e w'
    | (Return a, w') => (Return a, w')
    | (Never, w') => (Never, w')
    end.

Declare Scope async_scope.
Delimit Scope async_scope with async.
Notation "x <- m ;; k" := (bind m (fun x => k))
  (at level 61, m at next level, right associativity) : async_scope.
Notation "m ;; k" := (bind m (fun _ => k))
  (at level 61, right associativity) : async_scope.
Local Open Scope async_scope.

(** *** Runtime primitives *)

(** [setTimeout(callback, ms)]: arms a timer and returns its handle.
    The delay is taken inside the timer range (1 to 2147483647 ms); the
    runtime replaces any other delay by 1 ms, which is not modelled. *)
Definition setTimeout (ms : N) : M timer :=
  fun w =>
    let t := {| timer_id := next_timer w; due := (now w + ms)%N |} in
    (Return t,
     set_next_timer (S (next_timer w)) (set_armed (t :: armed w) w)).

Definition clearTimeout (t : timer) : M unit :=
  fun w => (Return tt, set_armed (disarm (timer_id t) (armed w)) w).

Definition console_log (line : string) : M unit :=
  fun w => (Return tt, set_console (line :: console w) w).

(** The timer [t] fires: the clock reaches its due instant and it is no
    longer armed. *)
Definition fire (t : timer) (w : world) : world :=
  set_armed (disarm (timer_id t) (armed w)) (set_now (N.max (now w) (due t)) w).

(** [await fetch(request, { signal })] where the signal belongs to a
    controller that the timer [deadline] aborts.  The call is issued; the
    network's answer wins when it comes before the timer is due, otherwise
    (also when both fall on the same millisecond) the timer fires, the call
    is torn down and [fetch] rejects with an AbortError. *)
Definition fetch (request : Request.t) (deadline : timer) : M Response.t :=
  fun w =>
    let call := http_calls w in
    let w1 := set_sent (request :: sent w) w in
    let abort :=
      (Throw (Native "AbortError" "This operation was aborted"),
       set_aborted (call :: aborted w1) (fire deadline w1)) in
    match net w call with
    | Responds latency r =>
        if (now w + latency <? due deadline)%N
        then (Return r, set_now (now w + latency)%N w1)
        else abort
    | Rejects latency error_name error_message =>
        if (now w + latency <? due deadline)%N
        then (Throw (Native error_name error_message),
              set_now (now w + latency)%N w1)
        else abort
    | Stalls => abort
    end.

(** [new Promise(resolve => setTimeout(resolve, ms))], awaited: the timer
    is armed and the caller resumes when it fires. *)
Definition sleep (ms : N) : M unit :=
  t <- setTimeout ms ;;
  fun w => (Return tt, fire t w).

(** [await response.json()]: resumes when the body is complete, with the
    decoded value or a SyntaxError; never, when the body never ends. *)
Definition json (response : Response.t) : M value :=
  fun w =>
    let w1 := set_now (now w + Response.body_after response)%N w in
    match Response.body response with
    | Json v => (Return v, w1)
    | NotJson why => (Throw (Native "SyntaxError" why), w1)
    | Unfinished => (Never, w)
    end.

(* ================================================================== *)
(** ** The client *)

Definition DEFAULT_BASE_URL : string :=
  "https://cyzacqndakvnxhohmbgx.supabase.co".

Definition DEFAULT_TIMEOUT : N := 30000.

Record VidSentry := {
  apiKey : string;
  baseUrl : string;
  timeout : N;
  debug : bool
}.

Definition new_VidSentry (config : Config.t) : M VidSentry :=
  match Config.apiKey config with
  | None => throw (Sdk (AuthenticationError (VStr "API key is required")))
  | Some key =>
      if key =? "" then
        throw (Sdk (AuthenticationError (VStr "API key is required")))
      else if negb (prefix "vs_" key) then
        throw (Sdk (AuthenticationError (VStr
          "Invalid API key format. Keys should start with vs_live_ or vs_test_")))
      else
        ret {| apiKey := key;
               baseUrl := string_or (Config.baseUrl config) DEFAULT_BASE_URL;
               timeout := N_or (Config.timeout config) DEFAULT_TIMEOUT;
               debug := match Config.debug config with
                        | Some b => b
                        | None => false
                        end |}
  end.

(** *** Transport *)


(** What [handleErrorResponse] throws once it holds [errorData]. *)
Definition error_for (response : Response.t) (errorData : value) : exn :=
  match get_prop errorData "error" with
  | None =>
      Native "TypeError" "Cannot read properties of null (reading 'error')"
  | Some error =>
      let message := js_or error (VStr (Response.statusText response)) in
      let status := Response.status response in
      if (status =? 401)%N then
        Sdk (AuthenticationError message)
      else if (status =? 403)%N then
        Sdk (AuthenticationError
               (VStr "API key does not have permission for this action"))
      else if (status =? 404)%N then
        Sdk (NotFoundError "Resource" "unknown")
      else if (status =? 429)%N then
        let retryAfter :=
          parseInt (string_or (Response.get response "Retry-After") "60") in
        Sdk (RateLimitError message (VNum retryAfter))
      else if (status =? 402)%N then
        let required := js_or (field errorData "required") (num_of_Z 0) in
        let available := js_or (field errorData "available") (num_of_Z 0) in
        match InsufficientFundsError required available with
        | inr e => Sdk e
        | inl thrown => thrown
        end
      else
        Sdk (VidSentryError message ("HTTP_" ++ decimal status) errorData)
  end.

(** [handleErrorResponse] reads the body, keeping the empty object when
    it is not JSON, and throws; it never returns. *)
Definition handleErrorResponse (response : Response.t) : M unit :=
  errorData <- try_catch (json response) (fun _ => ret (VObj [])) ;;
  throw (error_for response errorData).

Definition request_headers (client : VidSentry) : list (string * string) :=
  [("Content-Type", "application/json");
   ("Authorization", "Bearer " ++ apiKey client);
   ("apikey", apiKey client)].

(** The arguments [request] gives to [fetch]. *)
Definition fetch_arguments (client : VidSentry) (path method : string)
    (body : option value) : Request.t :=
  {| Request.url := baseUrl client ++ path;
     Request.method := method;
     Request.headers := request_headers client;
     Request.body :=
       match body with
       | Some b => if truthy b then Some b else None
       | None => None
       end |}.

(** What the [catch] block of [request] throws for a caught [error]: an
    SDK error unchanged, a Timeout for an abort, a Network error for
    anything else. *)
Definition rethrown (error : exn) : exn :=
  match error with
  | Sdk _ => error
  | Native error_name error_message =>
      if error_name =? "AbortError"
      then Sdk (TimeoutError VUndefined)
      else Sdk (NetworkError (VStr error_message))
  end.

Definition request (client : VidSentry) (path method : string)
    (body : option value) : M value :=
  timeoutId <- setTimeout (timeout client) ;;
  try_catch
    ((if debug client
      then console_log ("[VidSentry] " ++ method ++ " " ++ path)
      else ret tt) ;;
     response <-
       fetch (fetch_arguments client path method body) timeoutId ;;
     clearTimeout timeoutId ;;
     (if negb (Response.ok response)
      then handleErrorResponse response
      else ret tt) ;;
     json response)
    (fun error =>
       clearTimeout timeoutId ;;
       throw (rethrown error)).

(** *** Domain operations *)

Definition DEFAULT_SETTINGS : Settings.t :=
  {| Settings.blur := Some true;
     Settings.mute := Some true;
     Settings.visualSensitivity := None;
     Settings.audioSensitivity := None |}.

(** A settings object as a value: the properties it has, in the order of
    the interface. *)
Definition settings_value (s : Settings.t) : value :=
  let bool_field k (o : option bool) :=
    match o with Some b => [(k, VBool b)] | None => [] end in
  let num_field k (o : option number) :=
    match o with Some n => [(k, VNum n)] | None => [] end in
  VObj (bool_field "blur" (Settings.blur s)
        ++ bool_field "mute" (Settings.mute s)
        ++ num_field "visualSensitivity" (Settings.visualSensitivity s)
        ++ num_field "audioSensitivity" (Settings.audioSensitivity s)).

Definition moderate_body (options : Options.t) : value :=
  VObj [("title", VStr (string_or (Options.title options) "SDK Upload"));
        ("videoUrl", opt_str (Options.videoUrl options));
        ("gcsUri", opt_str (Options.gcsUri options));
        ("filePath", opt_str (Options.filePath options));
        ("tier", VStr (tier_text match Options.tier options with
                                 | Some t => t
                                 | None => standard
                                 end));
        ("settings", settings_value match Options.settings options with
                                    | Some s => s
                                    | None => DEFAULT_SETTINGS
                                    end)].

Definition moderate (client : VidSentry) (options : Options.t) : M value :=
  if negb (present (Options.videoUrl options))
     && negb (present (Options.gcsUri options))
     && negb (present (Options.filePath options))
  then
    throw (Sdk (VidSentryError
                  (VStr "One of videoUrl, gcsUri, or filePath is required")
                  "VALIDATION_ERROR" VUndefined))
  else
    response <- request client "/functions/v1/unified-moderate" "POST"
                  (Some (moderate_body options)) ;;
    ret response.

Definition job_path (jobId : string) : string :=
  "/rest/v1/moderation_jobs?id=eq." ++ jobId ++ "&select=*".

(** The object literal getJobStatus returns.  Reading a property of a
    first element that is null or undefined is a TypeError. *)
Definition remap (job : value) : result Job.t :=
  match job with
  | VUndefined =>
      Throw (Native "TypeError"
               "Cannot read properties of undefined (reading 'id')")
  | VNull =>
      Throw (Native "TypeError"
               "Cannot read properties of null (reading 'id')")
  | _ =>
      let field := field job in
      Return
          {| Job.id := field "id";
             Job.videoId := field "video_id";
             Job.status := field "status";
             Job.originalUrl := field "original_url";
             Job.moderatedUrl := field "moderated_url";
             Job.detections := field "detections";
             Job.geminiAnalysis := field "gemini_analysis";
             Job.errorMessage := field "error_msg";
             Job.processingStartedAt := field "processing_started_at";
             Job.processingCompletedAt := field "processing_completed_at";
             Job.createdAt := field "created_at" |}
  end.

Definition getJobStatus (client : VidSentry) (jobId : string) : M Job.t :=
  response <- request client (job_path jobId) "GET" None ;;
  if negb (truthy response) || length_is_zero response then
    throw (Sdk (NotFoundError "Job" jobId))
  else
    lift (remap (first_element response)).

Definition TERMINAL : list string :=
  ["moderated"; "blurred"; "error"; "cancelled"].

(** [TERMINAL.includes(status)]: only a string can equal one of them. *)
Definition is_terminal (status : value) : bool :=
  match status with
  | VStr s => existsb (String.eqb s) TERMINAL
  | _ => false
  end.

Definition timeout_message (jobId : string) (maxWait : N) : string :=
  "Job " ++ jobId ++ " did not complete within "
  ++ seconds_text maxWait ++ " seconds".

(** The [while] loop of waitForCompletion; [now w] is [Date.now()].
    [fuel] bounds the number of times the condition is evaluated; [None]
    means it ran out, [Some (Never, _)] that a status call never came
    back. *)
Fixpoint poll (fuel : nat) (client : VidSentry) (jobId : string)
    (startTime maxWait pollInterval : N) (w : world)
  : option (result Job.t * world) :=
  match fuel with
  | O => None
  | S fuel' =>
      if (now w - startTime <? maxWait)%N then
        match getJobStatus client jobId w with
        | (Throw e, w1) => Some (Throw e, w1)
        | (Never, w1) => Some (Never, w1)
        | (Return job, w1) =>
            if is_terminal (Job.status job) then Some (Return job, w1)
            else
              poll fuel' client jobId startTime maxWait pollInterval
                   (snd (sleep pollInterval w1))
        end
      else
        Some (Throw (Sdk (TimeoutError
                            (VStr (timeout_message jobId maxWait)))),
              w)
  end.

Definition waitForCompletion (fuel : nat) (client : VidSentry)
    (jobId : string) (options : Wait.t) (w : world)
  : option (result Job.t * world) :=
  let maxWait := N_or (Wait.maxWait options) 300000 in
  let pollInterval := N_or (Wait.pollInterval options) 5000 in
  let startTime := now w in
  poll fuel client jobId startTime maxWait pollInterval w.

Definition getSignedUrl (client : VidSentry) (videoId : string)
  : M SignedUrl.t :=
  response <- request client "/functions/v1/get-signed-video-url" "POST"
                (Some (VObj [("videoId", VStr videoId)])) ;;
  match get_prop response "signedUrl", get_prop response "expiresAt" with
  | Some u, Some e => ret {| SignedUrl.url := u; SignedUrl.expiresAt := e |}
  | _, _ =>
      throw (Native "TypeError"
               "Cannot read properties of null (reading 'signedUrl')")
  end.

Definition getMetrics (client : VidSentry) : M value :=
  request client "/functions/v1/public-metrics" "GET" None.

(* ================================================================== *)
(** ** Vocabulary of the statements *)


Definition is_nullish (v : value) : bool :=
  match v with
  | VUndefined | VNull => true
  | _ => false
  end.


Definition ceil_div (a b : N) : N := ((a + b - 1) / b)%N.

(** A world at time zero in which nothing has happened yet and the network
    answers the [i]-th call with [answer i]. *)
Definition fresh (answer : nat -> fetch_outcome) : world :=
  {| now := 0; net := answer; sent := []; aborted := []; armed := [];
     next_timer := 0; console := [] |}.

Definition sample_client : VidSentry :=
  {| apiKey := "vs_test_0123";
     baseUrl := DEFAULT_BASE_URL;
     timeout := DEFAULT_TIMEOUT;
     debug := false |}.

Definition reply (status : N) (statusText : string)
    (headers : list (string * string)) (body : payload) : Response.t :=
  {| Response.status := status; Response.statusText := statusText;
     Response.headers := headers; Response.body := body;
     Response.body_after := 0 |}.


(** The largest delay the runtime's timers take. *)
Definition TIMEOUT_MAX : N := 2147483647.

(** The body of an answered call comes to its end. *)
Definition body_arrives (o : fetch_outcome) : Prop :=
  match o with
  | Responds _ r => Response.body r <> Unfinished
  | _ => True
  end.





(** A 429 whose Retry-After is an HTTP date. *)
Definition rate_limited_reply (retry_after : string) : Response.t :=
  reply 429 "Too Many Requests" [("retry-after", retry_after)]
    (Json (VObj [("error", VStr "slow down")])).

(** A 200 carrying the given JSON value. *)
Definition ok_reply (v : value) : Response.t := reply 200 "OK" [] (Json v).

(** A job row as the REST endpoint returns it. *)
Definition job_row (status : string) : value :=
  VObj [("id", VStr "job_7");
        ("video_id", VStr "vid_42");
        ("status", VStr status);
        ("original_url", VStr "https://x/video.mp4");
        ("error_msg", VNull);
        ("created_at", VStr "2026-01-05T10:00:00Z")].

(** Rounds of the polling loop that do not end it: from the first world
    to the second, each round finds the condition true, fetches a job
    whose status is not terminal, and sleeps for the interval. *)
Inductive pending_rounds (c : VidSentry) (jobId : string)
    (startTime maxWait pollInterval : N) : world -> world -> Prop :=
| rounds_none w :
    pending_rounds c jobId startTime maxWait pollInterval w w
| rounds_more w job w1 w2 :
    (now w - startTime < maxWait)%N ->
    getJobStatus c jobId w = (Return job, w1) ->
    is_terminal (Job.status job) = false ->
    pending_rounds c jobId startTime maxWait pollInterval
      (snd (sleep pollInterval w1)) w2 ->
    pending_rounds c jobId startTime maxWait pollInterval w w2.

(** The network of the polling scenario: the job is pending at the first
    status call and moderated from the second on. *)
Definition pending_then_moderated (call : nat) : fetch_outcome :=
  match call with
  | O => Responds 40 (ok_reply (VArr [job_row "pending"]))
  | S _ => Responds 40 (ok_reply (VArr [job_row "moderated"]))
  end.

Definition default_wait : Wait.t :=
  {| Wait.maxWait := None; Wait.pollInterval := None |}.

(** A 204: success without a body, which [response.json()] cannot read. *)
Definition no_content_reply : Response.t :=
  reply 204 "No Content" [] (NotJson "Unexpected end of JSON input").



(** A 500 with the usual [{error}] body. *)
Definition server_error_reply : Response.t :=
  reply 500 "Internal Server Error" []
    (Json (VObj [("error", VStr "database unavailable")])).

(** A configuration that gives only a key. *)
Definition key_only (key : string) : Config.t :=
  {| Config.apiKey := Some key; Config.baseUrl := None;
     Config.timeout := None; Config.debug := None |}.










(** A delay the runtime's timers take as it is. *)
Definition in_timer_range (ms : N) : Prop := (1 <= ms <= TIMEOUT_MAX)%N.

(* ================================================================== *)
(** ** Timers and the transport *)

Lemma disarm_idem id l : disarm id (disarm id l) = disarm id l.
Proof.
  unfold disarm. induction l as [|t l IH]; simpl; auto.
  destruct (negb (timer_id t =? id)%nat) eqn:E; simpl; rewrite ?E, IH; auto.
Qed.

Lemma disarm_own id d l :
  disarm id ({| timer_id := id; due := d |} :: l) = disarm id l.
Proof. unfold disarm. simpl. rewrite Nat.eqb_refl. reflexivity. Qed.

Lemma disarm_incl id l : incl (disarm id l) l.
Proof. unfold disarm. apply incl_filter. Qed.


Ltac run :=
  unfold request, handleErrorResponse, json, bind, try_catch, setTimeout,
    fetch, clearTimeout, console_log, throw, ret, lift, fire, http_calls;
  cbn [fst snd now net sent aborted armed next_timer console
       set_now set_sent set_aborted set_armed set_next_timer set_console
       timer_id due].

Ltac split_run :=
  repeat (match goal with
   | |- context [match net ?w ?i with _ => _ end] => destruct (net w i) eqn:?
   | |- context [if ?b then _ else _] => destruct b eqn:?
   | |- context [match Response.body ?r with _ => _ end] =>
       destruct (Response.body r) eqn:?
   end; run).

(** Every [request] issues exactly one call, with the arguments built from
    its own. *)
Lemma request_sent c path method body w :
  sent (snd (request c path method body w))
  = fetch_arguments c path method body :: sent w.
Proof. run. split_run; reflexivity. Qed.

Lemma request_calls c path method body w :
  http_calls (snd (request c path method body w)) = S (http_calls w).
Proof. unfold http_calls. rewrite request_sent. reflexivity. Qed.

(** Whatever happens, the timer armed by the call is gone afterwards. *)
Lemma request_armed c path method body w :
  armed (snd (request c path method body w))
  = disarm (next_timer w) (armed w).
Proof.
  run. split_run; rewrite ?disarm_own, ?disarm_idem; reflexivity.
Qed.

(** The clock never goes back. *)
Lemma request_clock c path method body w :
  (now w <= now (snd (request c path method body w)))%N.
Proof.
  run. split_run;
    repeat match goal with
           | H : (_ <? _)%N = true |- _ => apply N.ltb_lt in H
           | H : (_ <? _)%N = false |- _ => apply N.ltb_ge in H
           end; lia.
Qed.

Lemma request_net c path method body w :
  net (snd (request c path method body w)) = net w.
Proof. run. split_run; reflexivity. Qed.

Lemma request_next_timer c path method body w :
  next_timer (snd (request c path method body w)) = S (next_timer w).
Proof. run. split_run; reflexivity. Qed.

Lemma rethrown_is_sdk e : exists s, rethrown e = Sdk s.
Proof.
  destruct e as [s | n m]; simpl; [eauto|].
  destruct (n =? "AbortError"); eauto.
Qed.

(** The outcome of a request, read off the network's answer. *)
Lemma request_result c path method body w :
  fst (request c path method body w) =
    match net w (http_calls w) with
    | Responds latency r =>
        if (latency <? timeout c)%N then
          match Response.body r with
          | Unfinished => Never
          | Json v =>
              if Response.ok r then Return v
              else Throw (rethrown (error_for r v))
          | NotJson why =>
              if Response.ok r
              then Throw (rethrown (Native "SyntaxError" why))
              else Throw (rethrown (error_for r (VObj [])))
          end
        else Throw (Sdk (TimeoutError VUndefined))
    | Rejects latency error_name error_message =>
        if (latency <? timeout c)%N
        then Throw (rethrown (Native error_name error_message))
        else Throw (Sdk (TimeoutError VUndefined))
    | Stalls => Throw (Sdk (TimeoutError VUndefined))
    end.
Proof.
  run. unfold http_calls.
  destruct (net w (length (sent w))) as [d r | d en em | ] eqn:Hnet;
    try (replace (d <? timeout c)%N with (now w + d <? now w + timeout c)%N
           by (destruct (N.ltb_spec d (timeout c));
               [apply N.ltb_lt | apply N.ltb_ge]; lia));
    destruct (debug c); run; rewrite Hnet; run; split_run; try reflexivity;
    simpl in *; discriminate.
Qed.





(* ================================================================== *)
(** ** Transport: the deadline *)




(* ================================================================== *)
(** ** Transport: status codes to errors *)







(* ================================================================== *)
(** ** Transport: Retry-After *)






Lemma leading_digits_started s a :
  exists z, leading_digits s (Some a) = Some z.
Proof.
  revert a. induction s as [|c s IH]; intros a; simpl.
  - eauto.
  - destruct (digit_of c); eauto.
Qed.





(** A header of white space only reads as the empty string and falls
    back to 60; a numeral beyond 2^53 reads as the nearest double. *)
Example retry_after_blank :
  fst (request sample_client "/functions/v1/public-metrics" "GET" None
         (fresh (fun _ => Responds 15 (rate_limited_reply "   "))))
  = Throw (Sdk (RateLimitError (VStr "slow down") (VNum (Num 60)))).
Proof. vm_compute. reflexivity. Qed.

Example retry_after_beyond_2_53 :
  parseInt "9007199254740993" = Num 9007199254740992.
Proof. vm_compute. reflexivity. Qed.

(* ================================================================== *)
(** ** Construction *)

Lemma prefix_marker rest : prefix "vs_" ("vs_" ++ rest) = true.
Proof. simpl. destruct rest; reflexivity. Qed.

(** C7: Construction leaves the world as it found it (in particular it
    issues no HTTP call), whatever the configuration; and when the API key
    is missing, empty, or does not begin with the marker "vs_", it raises
    an Authentication error (code AUTHENTICATION_ERROR). *)
Theorem constructor_rejects_bad_key config w :
  (snd (new_VidSentry config w) = w
   /\ http_calls (snd (new_VidSentry config w)) = http_calls w)
  /\ (match Config.apiKey config with
      | None => True
      | Some key => key = "" \/ prefix "vs_" key = false
      end ->
      exists e,
        new_VidSentry config w = (Throw (Sdk e), w)
        /\ class e = Authentication
        /\ code e = "AUTHENTICATION_ERROR").
Proof.
  unfold new_VidSentry. split.
  - destruct (Config.apiKey config) as [key|]; [|split; reflexivity].
    destruct (key =? ""); [split; reflexivity|].
    destruct (prefix "vs_" key); split; reflexivity.
  - destruct (Config.apiKey config) as [key|].
    + intros [-> | Hbad].
      * eexists. repeat split.
      * destruct (key =? ""); [eexists; repeat split|].
        rewrite Hbad. eexists. repeat split.
    + intros _. eexists. repeat split.
Qed.

Lemma constructor_rejects_bad_key_witness :
  (prefix "vs_" "sk_live_0123" = false)
  /\ exists e,
       new_VidSentry {| Config.apiKey := Some "sk_live_0123";
                        Config.baseUrl := None;
                        Config.timeout := None;
                        Config.debug := None |} (fresh (fun _ => Stalls))
       = (Throw (Sdk e), fresh (fun _ => Stalls))
       /\ class e = Authentication
       /\ code e = "AUTHENTICATION_ERROR".
Proof.
  split.
  - reflexivity.
  - apply (proj2 (constructor_rejects_bad_key
                    {| Config.apiKey := Some "sk_live_0123";
                       Config.baseUrl := None;
                       Config.timeout := None;
                       Config.debug := None |} (fresh (fun _ => Stalls)))).
    right. reflexivity.
Defined.

(** C10: Every key that begins with the three characters "vs_" is
    accepted: construction returns a client holding that key, whether or
    not the key goes on with "live_" or "test_"; yet the message of the
    key-format error names only vs_live_ and vs_test_. *)
Theorem constructor_accepts_any_vs_key config w rest :
  Config.apiKey config = Some ("vs_" ++ rest) ->
  (exists client,
     new_VidSentry config w = (Return client, w)
     /\ apiKey client = "vs_" ++ rest)
  /\ (forall other bad,
        Config.apiKey other = Some bad -> bad <> "" ->
        prefix "vs_" bad = false ->
        exists e,
          fst (new_VidSentry other w) = Throw (Sdk e)
          /\ message e = VStr
               "Invalid API key format. Keys should start with vs_live_ or vs_test_").
Proof.
  intros Hkey. split.
  - unfold new_VidSentry. rewrite Hkey, prefix_marker.
    cbn [append String.eqb Ascii.eqb Bool.eqb negb].
    eexists. split; reflexivity.
  - intros other bad Hother Hne Hbad. unfold new_VidSentry.
    rewrite Hother, Hbad.
    destruct (String.eqb_spec bad ""); [contradiction|].
    eexists. split; reflexivity.
Qed.

Lemma constructor_accepts_any_vs_key_witness :
  (prefix "vs_live_" "vs_x" = false /\ prefix "vs_test_" "vs_x" = false)
  /\ exists client,
       new_VidSentry {| Config.apiKey := Some "vs_x";
                        Config.baseUrl := None;
                        Config.timeout := None;
                        Config.debug := None |} (fresh (fun _ => Stalls))
       = (Return client, fresh (fun _ => Stalls))
       /\ apiKey client = "vs_x".
Proof.
  split.
  - split; reflexivity.
  - apply (proj1 (constructor_accepts_any_vs_key
                    {| Config.apiKey := Some "vs_x";
                       Config.baseUrl := None;
                       Config.timeout := None;
                       Config.debug := None |}
                    (fresh (fun _ => Stalls)) "x" eq_refl)).
Defined.

(* ================================================================== *)
(** ** Submitting a video *)

(** C6: When none of videoUrl, gcsUri and filePath is present (missing
    or empty), [moderate] raises a generic error with code
    VALIDATION_ERROR and leaves the world untouched: no HTTP call is
    issued, no timer armed, the transport is not entered. *)
Theorem moderate_requires_locator c options w :
  present (Options.videoUrl options) = false ->
  present (Options.gcsUri options) = false ->
  present (Options.filePath options) = false ->
  exists e,
    moderate c options w = (Throw (Sdk e), w)
    /\ class e = Base
    /\ code e = "VALIDATION_ERROR"
    /\ http_calls (snd (moderate c options w)) = http_calls w
    /\ sent (snd (moderate c options w)) = sent w.
Proof.
  intros Hv Hg Hf. unfold moderate. rewrite Hv, Hg, Hf.
  eexists. repeat split.
Qed.

Lemma moderate_requires_locator_witness :
  exists e,
    moderate sample_client
      {| Options.videoUrl := None; Options.gcsUri := Some "";
         Options.filePath := None; Options.title := Some "holiday";
         Options.tier := Some premium; Options.settings := None |}
      (fresh (fun _ => Stalls))
    = (Throw (Sdk e), fresh (fun _ => Stalls))
    /\ class e = Base
    /\ code e = "VALIDATION_ERROR"
    /\ http_calls (snd (moderate sample_client
         {| Options.videoUrl := None; Options.gcsUri := Some "";
            Options.filePath := None; Options.title := Some "holiday";
            Options.tier := Some premium; Options.settings := None |}
         (fresh (fun _ => Stalls)))) = http_calls (fresh (fun _ => Stalls))
    /\ sent (snd (moderate sample_client
         {| Options.videoUrl := None; Options.gcsUri := Some "";
            Options.filePath := None; Options.title := Some "holiday";
            Options.tier := Some premium; Options.settings := None |}
         (fresh (fun _ => Stalls)))) = sent (fresh (fun _ => Stalls)).
Proof.
  apply (moderate_requires_locator sample_client
           {| Options.videoUrl := None; Options.gcsUri := Some "";
              Options.filePath := None; Options.title := Some "holiday";
              Options.tier := Some premium; Options.settings := None |}
           (fresh (fun _ => Stalls)));
    reflexivity.
Defined.

Lemma lookup_absent k fields :
  ~ In k (map fst fields) -> lookup k fields = VUndefined.
Proof.
  induction fields as [|[k' v] rest IH]; simpl; [reflexivity|].
  intros Hnot. destruct (String.eqb_spec k' k) as [-> | Hne].
  - exfalso. apply Hnot. left. reflexivity.
  - apply IH. intros Hin. apply Hnot. right. exact Hin.
Qed.




(* ================================================================== *)
(** ** Fetching a job *)

(** What [getJobStatus] does with the decoded body of its call. *)
Lemma getJobStatus_after_request c jobId w response w' :
  request c (job_path jobId) "GET" None w = (Return response, w') ->
  getJobStatus c jobId w =
    if negb (truthy response) || length_is_zero response
    then (Throw (Sdk (NotFoundError "Job" jobId)), w')
    else (remap (first_element response), w').
Proof.
  intros Hreq. unfold getJobStatus, bind. rewrite Hreq.
  destruct (negb (truthy response) || length_is_zero response); reflexivity.
Qed.

(** C5 (as amended): When the status call returns an empty array, or no
    collection at all (null or another falsy value), [getJobStatus]
    raises a NotFound error whose detail is {resource: "Job", id: the job
    ID}.  When it returns a non-empty array whose first element is not
    null, that element is turned into the Job: each canonical field is
    read from its wire name (videoId from video_id, errorMessage from
    error_msg, ...), and a field the row does not have is undefined. *)
Theorem getJobStatus_shape c jobId w response w' :
  request c (job_path jobId) "GET" None w = (Return response, w') ->
  (truthy response = false \/ response = VArr [] ->
   exists e,
     getJobStatus c jobId w = (Throw (Sdk e), w')
     /\ class e = NotFound
     /\ code e = "NOT_FOUND"
     /\ details e = VObj [("resource", VStr "Job"); ("id", VStr jobId)])
  /\ (forall row rest,
        response = VArr (row :: rest) ->
        is_nullish row = false ->
        exists job,
          getJobStatus c jobId w = (Return job, w')
          /\ Job.id job = field row "id"
          /\ Job.videoId job = field row "video_id"
          /\ Job.status job = field row "status"
          /\ Job.originalUrl job = field row "original_url"
          /\ Job.moderatedUrl job = field row "moderated_url"
          /\ Job.detections job = field row "detections"
          /\ Job.geminiAnalysis job = field row "gemini_analysis"
          /\ Job.errorMessage job = field row "error_msg"
          /\ Job.processingStartedAt job = field row "processing_started_at"
          /\ Job.processingCompletedAt job
             = field row "processing_completed_at"
          /\ Job.createdAt job = field row "created_at"
          /\ (forall fields k,
                row = VObj fields -> ~ In k (map fst fields) ->
                field row k = VUndefined)).
Proof.
  intros Hreq. rewrite (getJobStatus_after_request _ _ _ _ _ Hreq). split.
  - intros [Hfalsy | ->].
    + rewrite Hfalsy. cbn [negb orb]. eexists. repeat split.
    + cbn. eexists. repeat split.
  - intros row rest -> Hrow. cbn.
    destruct row; try discriminate; cbn;
      eexists; repeat split;
      intros fields0 k Heq Hnot; try discriminate.
    injection Heq as <-. apply lookup_absent. exact Hnot.
Qed.

Lemma getJobStatus_shape_witness :
  (request sample_client (job_path "job_7") "GET" None
     (fresh (fun _ => Responds 40 (ok_reply (VArr [job_row "pending"]))))
   = (Return (VArr [job_row "pending"]),
      snd (request sample_client (job_path "job_7") "GET" None
             (fresh (fun _ => Responds 40
                                (ok_reply (VArr [job_row "pending"])))))))
  /\ exists job,
       fst (getJobStatus sample_client "job_7"
              (fresh (fun _ => Responds 40
                                 (ok_reply (VArr [job_row "pending"])))))
       = Return job
       /\ Job.videoId job = VStr "vid_42"
       /\ Job.status job = VStr "pending"
       /\ Job.errorMessage job = VNull
       /\ Job.moderatedUrl job = VUndefined.
Proof.
  split.
  - reflexivity.
  - destruct (proj2 (getJobStatus_shape sample_client "job_7"
                       (fresh (fun _ => Responds 40
                                 (ok_reply (VArr [job_row "pending"]))))
                       (VArr [job_row "pending"]) _ eq_refl)
                (job_row "pending") [] eq_refl eq_refl)
      as (job & Hres & _ & Hvid & Hst & _ & Hmod & _ & _ & Herr & _).
    exists job. rewrite Hres, Hvid, Hst, Hmod, Herr.
    repeat split.
Defined.

(** C5 (as stated) fails for a collection that begins with null: the
    first element is not remapped; reading its [id] throws a TypeError,
    which leaves [getJobStatus] as it is. *)
Lemma null_row_is_not_remapped :
  fst (getJobStatus sample_client "job_7"
         (fresh (fun _ => Responds 40
                   (ok_reply (VArr [VNull; job_row "moderated"])))))
  = Throw (Native "TypeError"
             "Cannot read properties of null (reading 'id')").
Proof. vm_compute. reflexivity. Qed.

(** An unknown job: the endpoint answers 200 with an empty array. *)
Example getJobStatus_empty :
  fst (getJobStatus sample_client "job_404"
         (fresh (fun _ => Responds 40 (ok_reply (VArr [])))))
  = Throw (Sdk (NotFoundError "Job" "job_404")).
Proof. vm_compute. reflexivity. Qed.

(* ================================================================== *)
(** ** The completion poller *)

Lemma getJobStatus_world c jobId w :
  snd (getJobStatus c jobId w) = snd (request c (job_path jobId) "GET" None w).
Proof.
  unfold getJobStatus, bind.
  destruct (request c (job_path jobId) "GET" None w) as [[e|response|] w1];
    try reflexivity.
  destruct (negb (truthy response) || length_is_zero response); reflexivity.
Qed.

Lemma getJobStatus_calls c jobId w :
  http_calls (snd (getJobStatus c jobId w)) = S (http_calls w).
Proof. rewrite getJobStatus_world. apply request_calls. Qed.

Lemma getJobStatus_clock c jobId w :
  (now w <= now (snd (getJobStatus c jobId w)))%N.
Proof. rewrite getJobStatus_world. apply request_clock. Qed.

Lemma getJobStatus_net c jobId w :
  net (snd (getJobStatus c jobId w)) = net w.
Proof. rewrite getJobStatus_world. apply request_net. Qed.

(** A status call never comes back only when the body of the answer
    never ends. *)
Lemma getJobStatus_never c jobId w w1 :
  getJobStatus c jobId w = (Never, w1) ->
  ~ body_arrives (net w (http_calls w)).
Proof.
  intros Hget Harr.
  pose proof (request_result c (job_path jobId) "GET" None w) as Hres.
  unfold getJobStatus, bind in Hget.
  destruct (request c (job_path jobId) "GET" None w) as [[e|response|] w2];
    cbn [fst] in Hres.
  - discriminate.
  - destruct (negb (truthy response) || length_is_zero response);
      [discriminate|].
    unfold lift, remap in Hget.
    destruct (first_element response); discriminate.
  - destruct (net w (http_calls w)) as [d r | d en em | ];
      try destruct (d <? timeout c)%N; try discriminate.
    cbn in Harr.
    destruct (Response.body r); try contradiction;
      destruct (Response.ok r); discriminate.
Qed.

Lemma sleep_world ms w :
  sleep ms w = (Return tt, snd (sleep ms w))
  /\ now (snd (sleep ms w)) = (now w + ms)%N
  /\ sent (snd (sleep ms w)) = sent w.
Proof. unfold sleep, bind, setTimeout, fire. cbn. repeat split. lia. Qed.

Lemma sleep_frame ms w :
  next_timer (snd (sleep ms w)) = S (next_timer w)
  /\ net (snd (sleep ms w)) = net w
  /\ incl (armed (snd (sleep ms w))) (armed w).
Proof.
  unfold sleep. run. rewrite disarm_own.
  repeat split. apply disarm_incl.
Qed.

Lemma ceil_div_covers M P : (0 < P)%N -> (M <= ceil_div M P * P)%N.
Proof.
  intros HP. unfold ceil_div.
  pose proof (N.div_mod (M + P - 1) P ltac:(lia)) as Hdm.
  pose proof (N.mod_lt (M + P - 1) P ltac:(lia)) as Hlt.
  nia.
Qed.

Lemma N_or_positive n d : (0 < d)%N -> (0 < N_or n d)%N.
Proof.
  intros Hd. unfold N_or. destruct n as [k|]; [|exact Hd].
  destruct (N.eqb_spec k 0); lia.
Qed.


Lemma poll_unfold fuel c jobId startTime maxWait pollInterval w :
  poll (S fuel) c jobId startTime maxWait pollInterval w =
    if (now w - startTime <? maxWait)%N then
      match getJobStatus c jobId w with
      | (Throw e, w1) => Some (Throw e, w1)
      | (Never, w1) => Some (Never, w1)
      | (Return job, w1) =>
          if is_terminal (Job.status job) then Some (Return job, w1)
          else poll fuel c jobId startTime maxWait pollInterval
                 (snd (sleep pollInterval w1))
      end
    else Some (Throw (Sdk (TimeoutError
                             (VStr (timeout_message jobId maxWait)))), w).
Proof. reflexivity. Qed.

(** A run of the loop: some rounds that find a pending job, then the
    round that ends it. *)
Lemma poll_run c jobId startTime maxWait pollInterval :
  (0 < pollInterval)%N ->
  forall r k w,
    (N.to_nat (ceil_div maxWait pollInterval) <= k + r)%nat ->
    (k <= N.to_nat (ceil_div maxWait pollInterval))%nat ->
    (startTime + N.of_nat k * pollInterval <= now w)%N ->
    exists out w' wk,
      (forall fuel, (r + 1 <= fuel)%nat ->
         poll fuel c jobId startTime maxWait pollInterval w = Some (out, w'))
      /\ (http_calls w'
          <= http_calls w + (N.to_nat (ceil_div maxWait pollInterval) - k))%nat
      /\ (now w <= now wk)%N
      /\ (now wk <= now w')%N
      /\ net wk = net w
      /\ pending_rounds c jobId startTime maxWait pollInterval w wk
      /\ ((maxWait <= now wk - startTime)%N
          /\ w' = wk
          /\ out = Throw (Sdk (TimeoutError
                                 (VStr (timeout_message jobId maxWait))))
          \/ (now wk - startTime < maxWait)%N
             /\ getJobStatus c jobId wk = (out, w')
             /\ (forall job, out = Return job ->
                 is_terminal (Job.status job) = true)).
Proof.
  intros HP.
  pose proof (ceil_div_covers maxWait pollInterval HP) as Hcover.
  assert (Hstop : forall w,
    (now w - startTime <? maxWait)%N = false ->
    exists out w' wk,
      (forall fuel, (0 + 1 <= fuel)%nat ->
         poll fuel c jobId startTime maxWait pollInterval w = Some (out, w'))
      /\ http_calls w' = http_calls w
      /\ (now w <= now wk)%N /\ (now wk <= now w')%N /\ net wk = net w
      /\ pending_rounds c jobId startTime maxWait pollInterval w wk
      /\ ((maxWait <= now wk - startTime)%N
          /\ w' = wk
          /\ out = Throw (Sdk (TimeoutError
                                 (VStr (timeout_message jobId maxWait))))
          \/ (now wk - startTime < maxWait)%N
             /\ getJobStatus c jobId wk = (out, w')
             /\ (forall job, out = Return job ->
                 is_terminal (Job.status job) = true))).
  { intros w Hdone.
    exists (Throw (Sdk (TimeoutError (VStr (timeout_message jobId maxWait))))),
      w, w.
    split; [intros [|fuel] Hf; [lia|]; rewrite poll_unfold, Hdone;
            reflexivity|].
    repeat split; try lia; try apply rounds_none.
    left. apply N.ltb_ge in Hdone. repeat split. exact Hdone. }
  induction r as [|r IH]; intros k w Hfuel Hk Hclock.
  - assert (Hdone : (now w - startTime <? maxWait)%N = false).
    { apply N.ltb_ge. nia. }
    destruct (Hstop w Hdone) as (out & w' & wk & Hrun & Hc & Hrest).
    exists out, w', wk. split; [exact Hrun|]. split; [lia | exact Hrest].
  - destruct (now w - startTime <? maxWait)%N eqn:Hcond.
    + pose proof Hcond as Hlt0. apply N.ltb_lt in Hlt0.
      assert (Hlt : (k < N.to_nat (ceil_div maxWait pollInterval))%nat) by nia.
      pose proof (getJobStatus_calls c jobId w) as Hcalls.
      pose proof (getJobStatus_clock c jobId w) as Hclk.
      pose proof (getJobStatus_net c jobId w) as Hnet.
      destruct (getJobStatus c jobId w) as [[e|job|] w1] eqn:Hget;
        cbn [snd] in Hcalls, Hclk, Hnet.
      * exists (Throw e), w1, w.
        split; [intros [|fuel] Hf; [lia|];
                rewrite poll_unfold, Hcond, Hget; reflexivity|].
        repeat split; try lia; try apply rounds_none.
        right. repeat split; try assumption. discriminate.
      * destruct (is_terminal (Job.status job)) eqn:Hterm.
        -- exists (Return job), w1, w.
           split; [intros [|fuel] Hf; [lia|];
                   rewrite poll_unfold, Hcond, Hget, Hterm; reflexivity|].
           repeat split; try lia; try apply rounds_none.
           right. repeat split; try assumption.
           intros j Hj. injection Hj as <-. exact Hterm.
        -- destruct (sleep_world pollInterval w1) as (_ & Hnow2 & Hsent2).
           destruct (sleep_frame pollInterval w1) as (_ & Hnet2 & _).
           destruct (IH (S k) (snd (sleep pollInterval w1)))
             as (out & w' & wk & Hrun & Hcount & Hm1 & Hm2 & Hnk & Hrounds
                 & Hend).
           ++ lia.
           ++ lia.
           ++ rewrite Hnow2. lia.
           ++ exists out, w', wk.
              split; [intros [|fuel] Hf; [lia|];
                      rewrite poll_unfold, Hcond, Hget, Hterm;
                      apply Hrun; lia|].
              split; [unfold http_calls in *; rewrite Hsent2 in Hcount; lia|].
              split; [rewrite Hnow2 in Hm1; lia|].
              split; [exact Hm2|].
              split; [congruence|].
              split; [|exact Hend].
              eapply rounds_more; eassumption.
      * exists Never, w1, w.
        split; [intros [|fuel] Hf; [lia|];
                rewrite poll_unfold, Hcond, Hget; reflexivity|].
        repeat split; try lia; try apply rounds_none.
        right. repeat split; try assumption. discriminate.
    + destruct (Hstop w Hcond) as (out & w' & wk & Hrun & Hc & Hrest).
      exists out, w', wk.
      split; [intros fuel Hf; apply Hrun; lia|]. split; [lia | exact Hrest].
Qed.



(** C2 (as amended): With M the max-wait and P the poll interval in
    force (whole milliseconds; P and the request timeout are delays the
    timers take as they are) and P <= M, a call of waitForCompletion goes through rounds that each
    begin less than M after the start, fetch a job whose status is not
    terminal and sleep for P, and then ends in the first of three ways:
    a status call begun less than M after the start returns a job of
    terminal status, and that job is returned, hence within M plus the
    duration of that call; or such a status call raises, and its error is
    passed on; or a round begins M or more after the start, and the
    Timeout error whose message names the job ID and M in seconds is
    raised there.  At most ceil(M/P)+1 status calls are made.  Any fuel of
    at least ceil(M/P)+1 evaluations of the loop condition yields the
    same outcome, and the call comes to an end provided the body of every
    answered status call arrives; otherwise it waits for ever in the
    status call whose body does not. *)
Theorem waitForCompletion_bounded c jobId options w :
  let M := N_or (Wait.maxWait options) 300000 in
  let P := N_or (Wait.pollInterval options) 5000 in
  (P <= M)%N ->
  in_timer_range P ->
  in_timer_range (timeout c) ->
  exists out w' wk,
    (forall fuel,
       (N.to_nat (ceil_div M P) + 1 <= fuel)%nat ->
       waitForCompletion fuel c jobId options w = Some (out, w'))
    /\ (http_calls w' - http_calls w <= N.to_nat (ceil_div M P) + 1)%nat
    /\ (now w <= now w')%N
    /\ pending_rounds c jobId (now w) M P w wk
    /\ ((M <= now wk - now w)%N
        /\ w' = wk
        /\ out = Throw (Sdk (TimeoutError (VStr
                   ("Job " ++ jobId ++ " did not complete within "
                    ++ seconds_text M ++ " seconds"))))
        \/ (now wk - now w < M)%N
           /\ getJobStatus c jobId wk = (out, w')
           /\ (now w' - now w < M + (now w' - now wk))%N
           /\ (forall job, out = Return job ->
               is_terminal (Job.status job) = true))
    /\ ((forall i, body_arrives (net w i)) -> out <> Never).
Proof.
  intros M P _ _ _.
  assert (HP : (0 < P)%N) by (apply N_or_positive; reflexivity).
  destruct (poll_run c jobId (now w) M P HP
              (N.to_nat (ceil_div M P)) 0%nat w)
    as (out & w' & wk & Hrun & Hcount & Hm1 & Hm2 & Hnet & Hrounds & Hend);
    try lia.
  exists out, w', wk.
  split; [intros fuel Hfuel; unfold waitForCompletion; apply Hrun;
          exact Hfuel|].
  split; [lia|]. split; [lia|]. split; [exact Hrounds|].
  split.
  - destruct Hend as [(Hlate & Hw & Hout) | (Hlt & Hget & Hterm)].
    + left. repeat split; assumption.
    + right. repeat split; try assumption. lia.
  - intros Hbodies ->.
    destruct Hend as [(_ & _ & Hout) | (_ & Hget & _)]; [discriminate|].
    apply (getJobStatus_never _ _ _ _ Hget). rewrite Hnet. apply Hbodies.
Qed.

Lemma waitForCompletion_bounded_witness :
  (N_or (Wait.pollInterval default_wait) 5000
   <= N_or (Wait.maxWait default_wait) 300000)%N
  /\ in_timer_range (N_or (Wait.pollInterval default_wait) 5000)
  /\ in_timer_range (timeout sample_client)
  /\ exists job w',
       waitForCompletion 61 sample_client "job_7" default_wait
         (fresh pending_then_moderated) = Some (Return job, w')
       /\ Job.status job = VStr "moderated"
       /\ (http_calls w' - 0 <= 61)%nat.
Proof.
  assert (Hle : (N_or (Wait.pollInterval default_wait) 5000
                 <= N_or (Wait.maxWait default_wait) 300000)%N)
    by (vm_compute; discriminate).
  assert (Hrange : in_timer_range (N_or (Wait.pollInterval default_wait) 5000))
    by (split; vm_compute; discriminate).
  assert (Hdeadline : in_timer_range (timeout sample_client))
    by (split; vm_compute; discriminate).
  split; [exact Hle|]. split; [exact Hrange|]. split; [exact Hdeadline|].
  destruct (waitForCompletion_bounded sample_client "job_7" default_wait
              (fresh pending_then_moderated) Hle Hrange Hdeadline)
    as (out & w' & wk & Hrun & Hcount & _).
  specialize (Hrun 61%nat).
  assert (Hfuel : (N.to_nat (ceil_div
                     (N_or (Wait.maxWait default_wait) 300000)
                     (N_or (Wait.pollInterval default_wait) 5000)) + 1
                   <= 61)%nat) by (vm_compute; repeat constructor).
  specialize (Hrun Hfuel).
  destruct (waitForCompletion 61 sample_client "job_7" default_wait
              (fresh pending_then_moderated)) as [[out0 w0]|] eqn:Hval;
    [|discriminate].
  injection Hrun as -> ->.
  vm_compute in Hval.
  destruct out as [e|job|]; try discriminate.
  exists job, w'. split; [reflexivity|]. split; [|exact Hcount].
  injection Hval as Hjob _. rewrite <- Hjob. reflexivity.
Defined.

(** C2 (as stated) fails when a status call raises: with a network that
    never answers, the first status call is cut off by the request
    deadline, and waitForCompletion ends 30 s after its start, well before
    the 300 s max-wait, with the transport's Timeout error, whose message
    names neither the job nor the max-wait.  No job is returned and no
    Timeout is raised at or after M. *)
Lemma poller_raises_before_max_wait :
  exists e w',
    waitForCompletion 61 sample_client "job_7" default_wait
      (fresh (fun _ => Stalls)) = Some (Throw (Sdk e), w')
    /\ class e = Timeout
    /\ message e = VStr "Request timed out"
    /\ message e <> VStr (timeout_message "job_7" 300000)
    /\ now w' = 30000%N
    /\ ~ (300000 <= now w' - now (fresh (fun _ => Stalls)))%N
    /\ http_calls w' = 1%nat.
Proof.
  destruct (waitForCompletion 61 sample_client "job_7" default_wait
              (fresh (fun _ => Stalls))) as [[out w']|] eqn:Hrun;
    vm_compute in Hrun; [|discriminate].
  injection Hrun as <- <-.
  do 2 eexists. split; [reflexivity|].
  repeat split; try (vm_compute; discriminate).
  vm_compute. intros H. apply H. reflexivity.
Qed.

(** The loop is not bound to end: when the body of an answer to a status
    call never ends, the call of waitForCompletion waits in it for ever,
    whatever the max-wait. *)
Example poller_waits_for_body :
  exists w',
    waitForCompletion 61 sample_client "job_7" default_wait
      (fresh (fun _ => Responds 40
                (reply 200 "OK" [] Unfinished)))
    = Some (Never, w')
    /\ http_calls w' = 1%nat
    /\ armed w' = [].
Proof.
  destruct (waitForCompletion 61 sample_client "job_7" default_wait
              (fresh (fun _ => Responds 40 (reply 200 "OK" [] Unfinished))))
    as [[out w']|] eqn:Hrun; vm_compute in Hrun; [|discriminate].
  injection Hrun as <- <-. eexists. split; [reflexivity|].
  split; reflexivity.
Qed.

(** The polling scenario: pending at the first status call, moderated at
    the second; the poller returns the moderated job after two calls and
    one sleep. *)
Example poller_scenario :
  exists job w',
    waitForCompletion 61 sample_client "job_7" default_wait
      (fresh pending_then_moderated) = Some (Return job, w')
    /\ Job.status job = VStr "moderated"
    /\ http_calls w' = 2%nat
    /\ now w' = 5080%N
    /\ armed w' = [].
Proof.
  destruct (waitForCompletion 61 sample_client "job_7" default_wait
              (fresh pending_then_moderated)) as [[out w']|] eqn:Hrun;
    vm_compute in Hrun; [|discriminate].
  injection Hrun as <- <-.
  do 2 eexists. split; [reflexivity|]. repeat split.
Qed.

Example poller_timeout_message :
  timeout_message "job_7" 300000
  = "Job job_7 did not complete within 300 seconds".
Proof. vm_compute. reflexivity. Qed.
(* ================================================================== *)
(** ** Numbers as text: examples *)

Example decimal_500 : decimal 500 = "500".
Proof. reflexivity. Qed.

Example toFixed_5 : toFixed (Num 5) 2 = "5.00".
Proof. reflexivity. Qed.

Example toFixed_small_negative : toFixed (Num (-1 # 1000)) 2 = "-0.00".
Proof. reflexivity. Qed.

Example toFixed_tie : toFixed (Num (5 # 8)) 2 = "0.63".
Proof. reflexivity. Qed.

Example seconds_300 : seconds_text 300000 = "300".
Proof. reflexivity. Qed.

Example seconds_fraction : seconds_text 1050 = "1.05".
Proof. reflexivity. Qed.

Example parseInt_plain : parseInt "120" = Num 120.
Proof. reflexivity. Qed.

Example parseInt_prefix : parseInt "  -7 seconds" = Num (-7).
Proof. reflexivity. Qed.

Example parseInt_date : parseInt "Wed, 21 Oct 2026 07:28:00 GMT" = NaN.
Proof. reflexivity. Qed.



(* ================================================================== *)
(** ** The transport: further properties *)

(** X1: Whatever [request] raises is an SDK error: a failure of any other
    kind met on the way (network failure, abort, unreadable body, a
    TypeError inside the error handler) is turned into one before it
    reaches the caller. *)
Theorem request_raises_only_sdk_errors c path method body w e :
  fst (request c path method body w) = Throw e ->
  exists s, e = Sdk s.
Proof.
  rewrite request_result. intros H.
  assert (Hre : forall x, Throw (rethrown x) = @Throw value e ->
                          exists s, e = Sdk s).
  { intros x Hx. destruct (rethrown_is_sdk x) as [s Hs].
    rewrite Hs in Hx. injection Hx as <-. eauto. }
  destruct (net w (http_calls w)) as [d r | d en em | ];
    try destruct (d <? timeout c)%N;
    try (injection H as <-; eauto; fail);
    try (apply (Hre _ H); fail).
  destruct (Response.body r); destruct (Response.ok r);
    try discriminate; apply (Hre _ H).
Qed.

Lemma request_raises_only_sdk_errors_witness :
  fst (request sample_client "/functions/v1/public-metrics" "GET" None
         (fresh (fun _ => Responds 25 no_content_reply)))
  = Throw (Sdk (NetworkError (VStr "Unexpected end of JSON input")))
  /\ exists s,
       Sdk (NetworkError (VStr "Unexpected end of JSON input")) = Sdk s.
Proof.
  split.
  - reflexivity.
  - apply (request_raises_only_sdk_errors sample_client
             "/functions/v1/public-metrics" "GET" None
             (fresh (fun _ => Responds 25 no_content_reply))).
    reflexivity.
Defined.

(** X2: With the debug flag set, a request logs exactly one line, made of
    the method and the path only (never the body); without the flag it
    logs nothing.  This holds whatever the outcome of the call. *)
Theorem request_debug_log c path method body w :
  console (snd (request c path method body w)) =
    if debug c
    then ("[VidSentry] " ++ method ++ " " ++ path) :: console w
    else console w.
Proof. run. split_run; reflexivity. Qed.














Example error_message_text :
  exists e,
    fst (request sample_client "/functions/v1/public-metrics" "GET" None
           (fresh (fun _ => Responds 25 server_error_reply)))
    = Throw (Sdk e)
    /\ message e = VStr "database unavailable".
Proof. eexists. split; vm_compute; reflexivity. Qed.
(* ================================================================== *)
(** ** Further properties of the client *)

(** X9: A client that the constructor returned holds a key beginning
    with "vs_", a base URL that is not empty and a deadline that is not
    zero: the given base URL and timeout when they are truthy, the
    production URL and 30000 ms otherwise; debugging is off unless asked
    for. *)
Theorem constructor_defaults config w client w1 :
  new_VidSentry config w = (Return client, w1) ->
  Config.apiKey config = Some (apiKey client)
  /\ prefix "vs_" (apiKey client) = true
  /\ baseUrl client <> ""
  /\ (0 < timeout client)%N
  /\ match Config.baseUrl config with
     | Some u => (u <> "" -> baseUrl client = u)
                 /\ (u = "" -> baseUrl client = DEFAULT_BASE_URL)
     | None => baseUrl client = DEFAULT_BASE_URL
     end
  /\ match Config.timeout config with
     | Some t => (t <> 0%N -> timeout client = t)
                 /\ (t = 0%N -> timeout client = 30000%N)
     | None => timeout client = 30000%N
     end
  /\ match Config.debug config with
     | Some b => debug client = b
     | None => debug client = false
     end.
Proof.
  unfold new_VidSentry.
  destruct (Config.apiKey config) as [key|]; [|discriminate].
  destruct (key =? ""); [discriminate|].
  destruct (prefix "vs_" key) eqn:Hp; [|discriminate].
  cbn. intros H. injection H as <- _. cbn.
  split; [reflexivity|]. split; [exact Hp|].
  repeat split.
  - unfold string_or. destruct (Config.baseUrl config) as [u|];
      [|discriminate].
    destruct (String.eqb_spec u ""); [discriminate | assumption].
  - unfold N_or. destruct (Config.timeout config) as [t|]; [|reflexivity].
    destruct (N.eqb_spec t 0); [reflexivity | lia].
  - unfold string_or. destruct (Config.baseUrl config) as [u|];
      [|reflexivity].
    destruct (String.eqb_spec u ""); split; intros;
      try reflexivity; congruence.
  - unfold N_or. destruct (Config.timeout config) as [t|]; [|reflexivity].
    destruct (N.eqb_spec t 0); split; intros; try reflexivity; congruence.
  - destruct (Config.debug config); reflexivity.
Qed.

Lemma constructor_defaults_witness :
  exists client,
    new_VidSentry (key_only "vs_live_0123") (fresh (fun _ => Stalls))
    = (Return client, fresh (fun _ => Stalls))
    /\ baseUrl client = DEFAULT_BASE_URL
    /\ timeout client = 30000%N
    /\ debug client = false.
Proof.
  eexists. split; [reflexivity|].
  destruct (constructor_defaults (key_only "vs_live_0123")
              (fresh (fun _ => Stalls)) _ _ eq_refl)
    as (_ & _ & _ & _ & Hurl & Ht & Hd).
  repeat split; assumption.
Defined.

(** X10: Every request made through a constructed client goes to the
    client's base URL followed by the path and carries the configured key
    twice, as a Bearer authorization and in the apikey header, with a JSON
    content type, whatever becomes of the call. *)
Theorem constructed_client_credentials config w client w1
    path method body w2 :
  new_VidSentry config w = (Return client, w1) ->
  exists key req,
    Config.apiKey config = Some key
    /\ sent (snd (request client path method body w2)) = req :: sent w2
    /\ Request.url req = baseUrl client ++ path
    /\ Request.method req = method
    /\ Request.headers req = [("Content-Type", "application/json");
                              ("Authorization", "Bearer " ++ key);
                              ("apikey", key)].
Proof.
  intros Hnew.
  assert (Hkey : Config.apiKey config = Some (apiKey client)).
  { revert Hnew. unfold new_VidSentry.
    destruct (Config.apiKey config) as [key|]; [|discriminate].
    destruct (key =? ""); [discriminate|].
    destruct (prefix "vs_" key); [|discriminate].
    cbn. intros H. injection H as <- _. reflexivity. }
  exists (apiKey client), (fetch_arguments client path method body).
  split; [exact Hkey|]. split; [apply request_sent|].
  repeat split.
Qed.

Lemma constructed_client_credentials_witness :
  exists client req,
    new_VidSentry (key_only "vs_live_0123") (fresh (fun _ => Stalls))
    = (Return client, fresh (fun _ => Stalls))
    /\ sent (snd (request client "/functions/v1/public-metrics" "GET" None
                    (fresh (fun _ => Stalls)))) = [req]
    /\ Request.url req
       = "https://cyzacqndakvnxhohmbgx.supabase.co/functions/v1/public-metrics"
    /\ Request.headers req = [("Content-Type", "application/json");
                              ("Authorization", "Bearer vs_live_0123");
                              ("apikey", "vs_live_0123")].
Proof.
  eexists.
  destruct (constructed_client_credentials (key_only "vs_live_0123")
              (fresh (fun _ => Stalls)) _ _
              "/functions/v1/public-metrics" "GET" None
              (fresh (fun _ => Stalls)) eq_refl)
    as (key & req & Hkey & Hsent & Hurl & _ & Hh).
  exists req. injection Hkey as <-.
  split; [reflexivity|]. split; [exact Hsent|].
  split; [exact Hurl | exact Hh].
Defined.

Lemma bind_world {A B} (m : M A) (k : A -> M B) w :
  (forall a w1, snd (k a w1) = w1) ->
  snd (bind m k w) = snd (m w).
Proof.
  intros Hk. unfold bind.
  destruct (m w) as [[e|a|] w1]; [reflexivity| |reflexivity].
  apply Hk.
Qed.

Lemma getSignedUrl_world c videoId w :
  snd (getSignedUrl c videoId w)
  = snd (request c "/functions/v1/get-signed-video-url" "POST"
           (Some (VObj [("videoId", VStr videoId)])) w).
Proof.
  unfold getSignedUrl. apply bind_world. intros a w1.
  destruct (get_prop a "signedUrl"), (get_prop a "expiresAt"); reflexivity.
Qed.

Lemma moderate_world c options w :
  snd (moderate c options w) = w
  \/ snd (moderate c options w)
     = snd (request c "/functions/v1/unified-moderate" "POST"
              (Some (moderate_body options)) w).
Proof.
  unfold moderate.
  destruct (negb (present (Options.videoUrl options))
            && negb (present (Options.gcsUri options))
            && negb (present (Options.filePath options))).
  - left. reflexivity.
  - right. apply bind_world. reflexivity.
Qed.





(** X13: [getJobStatus] issues one GET, without a body, to the jobs
    endpoint with the job ID placed in the query as it is (nothing is
    escaped), whatever becomes of the call. *)
Theorem getJobStatus_request c jobId w :
  exists req,
    sent (snd (getJobStatus c jobId w)) = req :: sent w
    /\ Request.method req = "GET"
    /\ Request.url req
       = baseUrl c ++ "/rest/v1/moderation_jobs?id=eq." ++ jobId
         ++ "&select=*"
    /\ Request.body req = None.
Proof.
  rewrite getJobStatus_world, request_sent. eexists. repeat split.
Qed.

(** X14: When the status call returns something truthy that is not
    empty and whose element 0 is missing or null (an object instead of an
    array, or an array that begins with null), [getJobStatus] raises a
    bare TypeError: neither NotFound nor any other SDK error. *)
Theorem getJobStatus_type_error c jobId w response w' :
  request c (job_path jobId) "GET" None w = (Return response, w') ->
  truthy response = true ->
  length_is_zero response = false ->
  is_nullish (first_element response) = true ->
  exists text,
    getJobStatus c jobId w = (Throw (Native "TypeError" text), w').
Proof.
  intros Hreq Ht Hl Hn.
  rewrite (getJobStatus_after_request _ _ _ _ _ Hreq), Ht, Hl. cbn.
  destruct (first_element response); try discriminate;
    eexists; reflexivity.
Qed.

Lemma getJobStatus_type_error_witness :
  exists text,
    fst (getJobStatus sample_client "job_7"
           (fresh (fun _ => Responds 40 (ok_reply (job_row "moderated")))))
    = Throw (Native "TypeError" text).
Proof.
  destruct (getJobStatus_type_error sample_client "job_7"
              (fresh (fun _ => Responds 40 (ok_reply (job_row "moderated"))))
              (job_row "moderated") _ eq_refl eq_refl eq_refl eq_refl)
    as [text Hres].
  exists text. rewrite Hres. reflexivity.
Defined.

(** X15: No operation leaves a timer behind: after [moderate],
    [getJobStatus], [getSignedUrl], [getMetrics] or [sleep], whatever the
    outcome, every armed timer was armed before. *)
Theorem operations_leave_no_timer c w :
  (forall options, incl (armed (snd (moderate c options w))) (armed w))
  /\ (forall jobId, incl (armed (snd (getJobStatus c jobId w))) (armed w))
  /\ (forall videoId,
        incl (armed (snd (getSignedUrl c videoId w))) (armed w))
  /\ incl (armed (snd (getMetrics c w))) (armed w)
  /\ (forall ms, incl (armed (snd (sleep ms w))) (armed w)).
Proof.
  split; [|split; [|split; [|split]]].
  - intros options. destruct (moderate_world c options w) as [-> | ->].
    + apply incl_refl.
    + rewrite request_armed. apply disarm_incl.
  - intros jobId. rewrite getJobStatus_world, request_armed.
    apply disarm_incl.
  - intros videoId. rewrite getSignedUrl_world, request_armed.
    apply disarm_incl.
  - unfold getMetrics. rewrite request_armed. apply disarm_incl.
  - intros ms. unfold sleep. run.
    rewrite disarm_own. apply disarm_incl.
Qed.
(* ================================================================== *)
(** ** Further properties of the poller *)

Lemma getJobStatus_next_timer c jobId w :
  next_timer (snd (getJobStatus c jobId w)) = S (next_timer w).
Proof. rewrite getJobStatus_world. apply request_next_timer. Qed.


Lemma getJobStatus_armed c jobId w :
  incl (armed (snd (getJobStatus c jobId w))) (armed w).
Proof. rewrite getJobStatus_world, request_armed. apply disarm_incl. Qed.


Lemma poll_counts c jobId startTime maxWait pollInterval :
  forall fuel w out w',
    poll fuel c jobId startTime maxWait pollInterval w = Some (out, w') ->
    exists fetches sleeps : nat,
      http_calls w' = (http_calls w + fetches)%nat
      /\ next_timer w' = (next_timer w + fetches + sleeps)%nat
      /\ (sleeps <= fetches <= sleeps + 1)%nat
      /\ (forall job, out = Return job -> fetches = (sleeps + 1)%nat)
      /\ (out = Throw (Sdk (TimeoutError
                            (VStr (timeout_message jobId maxWait))))
          /\ fetches = sleeps
          \/ fetches = (sleeps + 1)%nat)
      /\ incl (armed w') (armed w)
      /\ net w' = net w
      /\ (now w <= now w')%N.
Proof.
  induction fuel as [|fuel IH]; intros w out w' Hrun; [discriminate|].
  rewrite poll_unfold in Hrun.
  destruct (now w - startTime <? maxWait)%N.
  - pose proof (getJobStatus_calls c jobId w) as Hcalls.
    pose proof (getJobStatus_next_timer c jobId w) as Hnext.
    pose proof (getJobStatus_net c jobId w) as Hnet.
    pose proof (getJobStatus_armed c jobId w) as Harmed.
    pose proof (getJobStatus_clock c jobId w) as Hclk.
    destruct (getJobStatus c jobId w) as [[e|job|] w1];
      cbn [snd] in Hcalls, Hnext, Hnet, Harmed, Hclk;
      [ injection Hrun as <- <-; exists 1%nat, 0%nat;
        repeat split; try lia; try assumption; try discriminate;
        try (right; reflexivity)
      |
      | injection Hrun as <- <-; exists 1%nat, 0%nat;
        repeat split; try lia; try assumption; try discriminate;
        try (right; reflexivity) ].
    + destruct (is_terminal (Job.status job)).
      * injection Hrun as <- <-. exists 1%nat, 0%nat.
        repeat split; try lia; try assumption; try (right; reflexivity).
      * destruct (sleep_frame pollInterval w1) as (Hn2 & Hnet2 & Harm2).
        destruct (sleep_world pollInterval w1) as (_ & Hnow2 & Hsent2).
        destruct (IH _ _ _ Hrun)
          as (f & s & Hc & Ht & Hbal & Hjob & Hend & Hinc & Hnt & Hmono).
        exists (S f), (S s).
        unfold http_calls in *. rewrite Hsent2 in Hc.
        split; [lia|]. split; [lia|]. split; [lia|].
        split; [intros j Hj; specialize (Hjob j Hj); lia|].
        split; [destruct Hend as [[He Hf] | Hf]; [left; split; [exact He|lia]
                                                  | right; lia]|].
        split; [intros t Hin; apply Harmed, Harm2, Hinc, Hin|].
        split; [congruence | lia].
  - injection Hrun as <- <-. exists 0%nat, 0%nat.
    repeat split; try lia; try discriminate; try apply incl_refl;
      try (left; split; reflexivity).
Qed.



(** X17: A finished call of waitForCompletion leaves no timer behind,
    whatever its outcome: every timer armed afterwards was armed before
    the call. *)
Theorem poller_leaves_no_timer fuel c jobId options w out w' :
  waitForCompletion fuel c jobId options w = Some (out, w') ->
  incl (armed w') (armed w).
Proof.
  unfold waitForCompletion. intros Hrun.
  destruct (poll_counts _ _ _ _ _ _ _ _ _ Hrun)
    as (f & s & _ & _ & _ & _ & _ & Hinc & _).
  exact Hinc.
Qed.

Lemma poller_leaves_no_timer_witness :
  exists out w',
    waitForCompletion 61 sample_client "job_7" default_wait
      (fresh (fun _ => Stalls)) = Some (out, w')
    /\ incl (armed w') [].
Proof.
  destruct (waitForCompletion 61 sample_client "job_7" default_wait
              (fresh (fun _ => Stalls))) as [[out w']|] eqn:Hrun.
  - exists out, w'. split; [reflexivity|].
    apply (poller_leaves_no_timer 61 sample_client "job_7" default_wait
             (fresh (fun _ => Stalls)) out w' Hrun).
  - exfalso. vm_compute in Hrun. discriminate.
Defined.






(* ================================================================== *)
(** ** Further properties of the operations *)






